(** * ComponentAnimalBleeding: wound infliction and bleeding of animals

    A shallow embedding of [componentanimalbleeding.c] (Enforce Script).
    The component talks to four collaborators that live in the engine: the
    creature ([m_ThisEntityAI]), the damage report ([TotalDamageResult]),
    the game configuration and random source ([GetGame()], [Math]) and the
    [Timer] facility.  The creature is kept abstract behind an interface;
    the component's own methods are written in a small state-and-error
    monad over a world that holds the creature, the timers allocated so
    far, the component's single timer slot and a log of the calls made. *)

From Stdlib Require Import ZArith Bool List Lia QArith Qpower.
From Stdlib Require Import Floats.SpecFloat.
From stdpp Require Import base option list strings.

Local Open Scope Z_scope.

(** ** Enforce Script [float]: IEEE 754 binary32 *)

Module F32.

Definition prec : Z := 24.
Definition emax : Z := 128.

Definition float : Type := spec_float.


(** Conversion of an integer literal, as in [BASE_BLEED_RATE = 250] and
    [bleed_treshold * 2]. *)
Definition of_Z (n : Z) : float := binary_normalize prec emax n 0 false.

(** [m * 2^e], rounded: used for the literals of the spec's examples. *)
Definition of_dyadic (m e : Z) : float := binary_normalize prec emax m e false.

Definition zero : float := of_Z 0.
Definition one : float := of_Z 1.
Definition half : float := of_dyadic 1 (-1).

Definition mul : float -> float -> float := SFmul prec emax.
Definition sub : float -> float -> float := SFsub prec emax.
Definition ltb : float -> float -> bool := SFltb.
Definition leb : float -> float -> bool := SFleb.
Definition eqb : float -> float -> bool := SFeqb.



End F32.

Abbreviation float := F32.float.

(** ** The component's constants and pure method *)

Definition BASE_BLEED_RATE : float := F32.of_Z 250.
Definition PASS_OUT_AMOUT : float := F32.of_Z 500.

Definition GetWoundIntensity (bleed_treshold : float) : float :=
  F32.mul bleed_treshold (F32.of_Z 2).

Arguments BASE_BLEED_RATE : simpl never.
Arguments PASS_OUT_AMOUT : simpl never.
Arguments F32.of_Z : simpl never.
Arguments F32.mul : simpl never.
Arguments F32.sub : simpl never.
Arguments F32.ltb : simpl never.
Arguments F32.leb : simpl never.
Arguments GetWoundIntensity : simpl never.

(** ** The engine's side *)

(** The creature, as the component uses it: [Object.GetType],
    [EntityAI.IsAlive], and [GetHealth] / [SetHealth] / [DecreaseHealth] on
    a damage zone ([EmptyString] is the global one) and a health type
    ([EmptyString] is the default one).  The engine's implementation is
    not part of the component, so it stays an interface. *)
Class EntityAI (E : Type) : Type := {
  GetType : E -> string;
  IsAlive : E -> bool;
  GetHealth : string -> string -> E -> float;
  SetHealth : string -> string -> float -> E -> E;
  DecreaseHealth : string -> string -> float -> E -> E
}.

(** [TotalDamageResult.GetDamage(zone_name, health_type)]. *)
Record TotalDamageResult : Type := {
  GetDamage : string -> string -> float
}.

(** [GetGame().ConfigGetFloat(path)] and the values that successive calls
    of [Math.RandomFloat01()] return. *)
Record Game : Type := {
  ConfigGetFloat : string -> float;
  RandomFloat01 : nat -> float
}.

(** Modelled from the spec: the [Timer] class is not in the component's
    file.  A timer is created idle; [Run(duration, obj, fn_name, params,
    loop)] registers a callback with one bound [float] parameter and starts
    it, [Stop()] stops it.  A started, looping timer fires again and again
    until it is stopped. *)
Record Timer : Type := {
  t_duration : float;
  t_function : string;
  t_params : float;
  t_loop : bool;
  t_running : bool
}.

Definition new_Timer : Timer :=
  {| t_duration := F32.zero; t_function := EmptyString;
     t_params := F32.zero; t_loop := false; t_running := false |}.

Definition Timer_Run (duration : float) (fn_name : string) (params : float)
    (loop : bool) (t : Timer) : Timer :=
  {| t_duration := duration; t_function := fn_name; t_params := params;
     t_loop := loop; t_running := true |}.

Definition Timer_Stop (t : Timer) : Timer :=
  {| t_duration := t_duration t; t_function := t_function t;
     t_params := t_params t; t_loop := t_loop t; t_running := false |}.

(** The calls with an effect that the component makes, in the order it
    makes them.  A timer is named by its reference. *)
Inductive Call : Type :=
  | CallSetHealth (zone health_type : string) (value : float)
  | CallDecreaseHealth (zone health_type : string) (value : float)
  | CallNewTimer (ref : nat)
  | CallTimerRun (ref : nat) (duration : float) (fn_name : string)
      (params : float) (loop : bool)
  | CallTimerStop (ref : nat).

Definition is_health_call (c : Call) : bool :=
  match c with
  | CallSetHealth _ _ _ | CallDecreaseHealth _ _ _ => true
  | _ => false
  end.

Definition is_decrease_call (c : Call) : bool :=
  match c with
  | CallDecreaseHealth _ _ _ => true
  | _ => false
  end.

Definition is_stop_call (c : Call) : bool :=
  match c with
  | CallTimerStop _ => true
  | _ => false
  end.

Definition is_blood_call (c : Call) : bool :=
  match c with
  | CallSetHealth _ health_type _ | CallDecreaseHealth _ health_type _ =>
      String.eqb health_type "Blood"
  | _ => false
  end.

(** Enforce Script's [!s] on a string: true on the empty string. *)
Definition string_not (s : string) : bool := String.eqb s EmptyString.

Section Component.

Context {E : Type} {creature : EntityAI E}.
Variable game : Game.

(** The world the component runs in.  [heap] holds every [Timer] object
    created so far, and a reference to a timer is its index there;
    [m_BleedTimer] is the component's member ([None] is [null]);
    [draws] counts the random numbers consumed. *)
Record World : Type := {
  m_ThisEntityAI : E;
  heap : list Timer;
  m_BleedTimer : option nat;
  draws : nat;
  calls : list Call
}.

Definition set_entity (e : E) (w : World) : World :=
  {| m_ThisEntityAI := e; heap := heap w; m_BleedTimer := m_BleedTimer w;
     draws := draws w; calls := calls w |}.

Definition set_heap (h : list Timer) (w : World) : World :=
  {| m_ThisEntityAI := m_ThisEntityAI w; heap := h;
     m_BleedTimer := m_BleedTimer w; draws := draws w; calls := calls w |}.

Definition set_m_BleedTimer (r : option nat) (w : World) : World :=
  {| m_ThisEntityAI := m_ThisEntityAI w; heap := heap w; m_BleedTimer := r;
     draws := draws w; calls := calls w |}.

Definition set_draws (n : nat) (w : World) : World :=
  {| m_ThisEntityAI := m_ThisEntityAI w; heap := heap w;
     m_BleedTimer := m_BleedTimer w; draws := n; calls := calls w |}.

Definition log (c : Call) (w : World) : World :=
  {| m_ThisEntityAI := m_ThisEntityAI w; heap := heap w;
     m_BleedTimer := m_BleedTimer w; draws := draws w;
     calls := calls w ++ [c] |}.

(** *** State and error monad: [None] is a call on a [null] reference *)

Definition M (A : Type) : Type := World -> option (A * World).

Definition ret {A} (a : A) : M A := fun w => Some (a, w).

Definition bind {A B} (c : M A) (k : A -> M B) : M B :=
  fun w => match c w with
           | Some (a, w') => k a w'
           | None => None
           end.

Definition fail {A} : M A := fun _ => None.
Definition get : M World := fun w => Some (w, w).
Definition modify (f : World -> World) : M unit := fun w => Some (tt, f w).

Notation "'let*' x ':=' c 'in' k" := (bind c (fun x => k))
  (at level 10, x name, c at level 100, k at level 200).
Notation "c >> k" := (bind c (fun _ => k))
  (at level 100, k at level 200, right associativity).

(** *** Calls on [m_ThisEntityAI] *)

Definition EntityAI_GetType : M string :=
  let* w := get in ret (GetType (m_ThisEntityAI w)).

Definition EntityAI_IsAlive : M bool :=
  let* w := get in ret (IsAlive (m_ThisEntityAI w)).

Definition EntityAI_GetHealth (zone health_type : string) : M float :=
  let* w := get in ret (GetHealth zone health_type (m_ThisEntityAI w)).

Definition EntityAI_SetHealth (zone health_type : string) (value : float)
    : M unit :=
  modify (fun w =>
    log (CallSetHealth zone health_type value)
      (set_entity (SetHealth zone health_type value (m_ThisEntityAI w)) w)).

Definition EntityAI_DecreaseHealth (zone health_type : string)
    (value : float) : M unit :=
  modify (fun w =>
    log (CallDecreaseHealth zone health_type value)
      (set_entity
         (DecreaseHealth zone health_type value (m_ThisEntityAI w)) w)).

(** *** [Math.RandomFloat01()] *)

Definition Math_RandomFloat01 : M float :=
  let* w := get in
  modify (set_draws (S (draws w))) >>
  ret (RandomFloat01 game (draws w)).

(** *** [new Timer()], [Run] and [Stop] through a reference *)

Definition Timer_new : M nat :=
  let* w := get in
  let r := length (heap w) in
  modify (fun w => log (CallNewTimer r) (set_heap (heap w ++ [new_Timer]) w)) >>
  ret r.

Definition deref (ref : option nat) : M (nat * Timer) :=
  match ref with
  | None => fail
  | Some r =>
      let* w := get in
      match heap w !! r with
      | Some t => ret (r, t)
      | None => fail
      end
  end.

Definition Timer_Run_ref (ref : option nat) (duration : float)
    (fn_name : string) (params : float) (loop : bool) : M unit :=
  let* rt := deref ref in
  modify (fun w =>
    log (CallTimerRun (fst rt) duration fn_name params loop)
      (set_heap
         (<[fst rt := Timer_Run duration fn_name params loop (snd rt)]>
            (heap w)) w)).

Definition Timer_Stop_ref (ref : option nat) : M unit :=
  let* rt := deref ref in
  modify (fun w =>
    log (CallTimerStop (fst rt))
      (set_heap (<[fst rt := Timer_Stop (snd rt)]> (heap w)) w)).

(** *** The component's methods *)

Definition InflictWoundDamage (damage_result : TotalDamageResult)
    (zone_name ammo : string) : M unit :=
  (if String.eqb ammo "MeleeWolf"
   then EntityAI_SetHealth "" "" (F32.of_Z 0)
   else ret tt) >>
  if string_not zone_name then ret tt
  else
    let health_damage_inflicted := GetDamage damage_result zone_name "Health" in
    let wound_healt_damage := health_damage_inflicted in
    EntityAI_DecreaseHealth "" "Health" wound_healt_damage >>
    if negb (String.eqb zone_name "")
    then EntityAI_DecreaseHealth zone_name "Health" wound_healt_damage
    else ret tt.

Definition CreateWound (damage_result : TotalDamageResult)
    (zone_name ammo : string) : M unit :=
  InflictWoundDamage damage_result zone_name ammo >>
  let* type := EntityAI_GetType in
  let can_bleed :=
    F32.ltb (F32.of_Z 0)
      (ConfigGetFloat game
         ("CfgVehicles " +:+ type +:+ " DamageSystem " +:+ "DamageZones "
            +:+ zone_name +:+ " canBleed")) in
  let bleed_threshold :=
    ConfigGetFloat game
      ("CfgAmmo " +:+ ammo +:+ " DamageApplied " +:+ "bleedThreshold") in
  let* chance := Math_RandomFloat01 in
  if can_bleed && F32.leb chance bleed_threshold
  then
    let* r := Timer_new in
    modify (set_m_BleedTimer (Some r)) >>
    let wound_intensity := GetWoundIntensity bleed_threshold in
    let* w := get in
    Timer_Run_ref (m_BleedTimer w) (F32.of_Z 1) "Bleed" wound_intensity true
  else ret tt.

Definition Bleed (wound_intensity : float) : M unit :=
  let* alive := EntityAI_IsAlive in
  if alive
  then
    let bleeding_intensity := F32.mul BASE_BLEED_RATE wound_intensity in
    let* global_blood_lvl := EntityAI_GetHealth "" "Blood" in
    EntityAI_DecreaseHealth "" "Blood" bleeding_intensity >>
    if F32.ltb global_blood_lvl PASS_OUT_AMOUT
    then EntityAI_SetHealth "" "" (F32.of_Z 0)
    else ret tt
  else
    let* w := get in
    Timer_Stop_ref (m_BleedTimer w).

(** Modelled from the spec: the scheduler behind [Timer], absent from the
    component's file.  Firing the timer behind [r] does nothing unless it
    is running; a timer that does not loop stops after it fired; the
    registered method is invoked on the component with the bound
    parameter. *)
Definition Timer_Tick (r : nat) : M unit :=
  let* w := get in
  match heap w !! r with
  | Some t =>
      if t_running t
      then
        (if t_loop t then ret tt else Timer_Stop_ref (Some r)) >>
        if String.eqb (t_function t) "Bleed" then Bleed (t_params t)
        else ret tt
      else ret tt
  | None => ret tt
  end.

End Component.

Arguments World E : clear implicits.
Arguments M E A : clear implicits.

(** ** A reference creature *)

(** Modelled from the spec: the creature health model is an engine class,
    absent from the component's file.  A creature has a health value per
    (zone, health type); the empty zone is the global pool and the empty
    health type stands for ["Health"]; a decrease subtracts; the creature
    is alive while its global health is above zero. *)
Record SimpleEntity : Type := {
  se_type : string;
  se_health : string -> string -> float
}.

Definition se_kind (health_type : string) : string :=
  if String.eqb health_type "" then "Health"%string else health_type.

Definition se_update (zone health_type : string) (v : float)
    (e : SimpleEntity) : SimpleEntity :=
  {| se_type := se_type e;
     se_health := fun z t =>
       if String.eqb z zone && String.eqb t (se_kind health_type)
       then v else se_health e z t |}.

#[export] Instance SimpleEntity_EntityAI : EntityAI SimpleEntity := {
  GetType := se_type;
  IsAlive := fun e => F32.ltb F32.zero (se_health e "" "Health");
  GetHealth := fun zone health_type e => se_health e zone (se_kind health_type);
  SetHealth := se_update;
  DecreaseHealth := fun zone health_type v e =>
    se_update zone health_type
      (F32.sub (se_health e zone (se_kind health_type)) v) e
}.

(** A deer with 100 health and 600 blood, a report of 10 damage to every
    zone, and a configuration in which every zone can bleed, every
    ammunition has a bleed threshold of one half and the draws are [d]. *)
Definition ex_deer : SimpleEntity :=
  {| se_type := "Animal_CervusElaphus";
     se_health := fun _ t =>
       if String.eqb t "Blood" then F32.of_Z 600 else F32.of_Z 100 |}.

Definition ex_report : TotalDamageResult :=
  {| GetDamage := fun _ _ => F32.of_Z 10 |}.

Definition ex_game (threshold d : float) : Game :=
  {| ConfigGetFloat := fun path =>
       if String.prefix "CfgAmmo" path then threshold else F32.one;
     RandomFloat01 := fun _ => d |}.

Definition ex_world (e : SimpleEntity) : World SimpleEntity :=
  {| m_ThisEntityAI := e; heap := []; m_BleedTimer := None; draws := 0%nat;
     calls := [] |}.

(** The floats nearest to 0.3 and to 0.7, and 0.75. *)
Definition draw_03 : float := S754_finite false 10066330 (-25).
Definition draw_07 : float := S754_finite false 11744051 (-24).

(** The deer after it was killed, and a deer that has lost blood. *)
Definition ex_dead_deer : SimpleEntity :=
  SetHealth "" "" (F32.of_Z 0) ex_deer.

Definition ex_weak_deer : SimpleEntity :=
  SetHealth "" "Blood" (F32.of_Z 350) ex_deer.

(** A component whose timer, started with intensity 1.0, is running. *)
Definition ex_bleeding_world (e : SimpleEntity) : World SimpleEntity :=
  {| m_ThisEntityAI := e;
     heap := [Timer_Run (F32.of_Z 1) "Bleed" F32.one true new_Timer];
     m_BleedTimer := Some 0%nat; draws := 1%nat; calls := [] |}.

(** ** Histories of the component *)

Section Runs.

Context {E : Type} {creature : EntityAI E}.
Variable game : Game.

(** What can happen to a component between its creation and now: its
    public methods are called, the scheduler fires a timer, and the rest of
    the engine acts on the creature. *)
Inductive Op : Type :=
  | OpInflictWoundDamage (damage_result : TotalDamageResult)
      (zone_name ammo : string)
  | OpCreateWound (damage_result : TotalDamageResult)
      (zone_name ammo : string)
  | OpBleed (wound_intensity : float)
  | OpTimerTick (r : nat)
  | OpEngine (f : E -> E).

Definition exec (op : Op) : M E unit :=
  match op with
  | OpInflictWoundDamage damage_result zone_name ammo =>
      InflictWoundDamage damage_result zone_name ammo
  | OpCreateWound damage_result zone_name ammo =>
      CreateWound game damage_result zone_name ammo
  | OpBleed wound_intensity => Bleed wound_intensity
  | OpTimerTick r => Timer_Tick r
  | OpEngine f => modify (fun w => set_entity (f (m_ThisEntityAI w)) w)
  end.

Fixpoint run (ops : list Op) : M E unit :=
  match ops with
  | [] => ret tt
  | op :: ops' => bind (exec op) (fun _ => run ops')
  end.

Definition is_CreateWound (op : Op) : bool :=
  match op with
  | OpCreateWound _ _ _ => true
  | _ => false
  end.

(** [Some true]: the timer behind [r] is running; [Some false]: it exists
    and is not running; [None]: there is no such timer. *)
Definition timer_state (r : nat) (w : World E) : option bool :=
  option_map t_running (heap w !! r).

(** A new component: no timer was created and [m_BleedTimer] is [null]. *)
Definition no_timer (w : World E) : Prop :=
  heap w = [] /\ m_BleedTimer w = None.

(** The component holds a timer: [m_BleedTimer] is not [null] and the
    object it refers to exists. *)
Definition holds_timer (w : World E) : Prop :=
  exists r : nat, m_BleedTimer w = Some r /\ (r < length (heap w))%nat.

(** The zone's [canBleed] flag and the ammunition's [bleedThreshold], as
    [CreateWound] reads them. *)
Definition can_bleed_of (type zone_name : string) : bool :=
  F32.ltb (F32.of_Z 0)
    (ConfigGetFloat game
       ("CfgVehicles " +:+ type +:+ " DamageSystem " +:+ "DamageZones "
          +:+ zone_name +:+ " canBleed")).

Definition bleed_threshold_of (ammo : string) : float :=
  ConfigGetFloat game
    ("CfgAmmo " +:+ ammo +:+ " DamageApplied " +:+ "bleedThreshold").

(** The outcome of the roll that [CreateWound] makes when it is called in
    [w]: the configuration is read, and the number is drawn, after the
    damage has been applied. *)
Definition bleed_roll (damage_result : TotalDamageResult)
    (zone_name ammo : string) (w : World E) : bool :=
  match InflictWoundDamage damage_result zone_name ammo w with
  | Some (_, w1) =>
      can_bleed_of (GetType (m_ThisEntityAI w1)) zone_name
      && F32.leb (RandomFloat01 game (draws w1)) (bleed_threshold_of ammo)
  | None => false
  end.

(** Between [w] and [w'] a bleed has started: a timer that did not exist
    in [w] is held by the component and runs "Bleed" in a loop. *)
Definition starts_bleeding (w w' : World E) : Prop :=
  exists (r : nat) (t : Timer),
    heap w !! r = None /\ heap w' !! r = Some t /\
    m_BleedTimer w' = Some r /\
    t_running t = true /\ t_loop t = true /\
    t_function t = "Bleed"%string.

(** From [w] to [w'] no timer was started or created: the slot and the
    number of timers are the same, a timer that was not running is not
    running, and a running timer was running before. *)
Definition no_timer_started (w w' : World E) : Prop :=
  m_BleedTimer w' = m_BleedTimer w /\
  length (heap w') = length (heap w) /\
  (forall j : nat, timer_state j w = Some false -> timer_state j w' = Some false) /\
  (forall j : nat, timer_state j w' = Some true -> timer_state j w = Some true).

(** A timer as [CreateWound] starts them: it fires every 1 time unit, in a
    loop, and calls "Bleed". *)
Definition bleed_timer (t : Timer) : Prop :=
  t_loop t = true /\ t_function t = "Bleed"%string /\
  t_duration t = F32.of_Z 1.

(** Every timer is one of [CreateWound]'s, and [m_BleedTimer] refers to the
    timer created last ([null] when none was created). *)
Definition newest_held (w : World E) : Prop :=
  Forall bleed_timer (heap w) /\
  m_BleedTimer w =
    match length (heap w) with
    | O => None
    | S n => Some n
    end.

End Runs.

Arguments Op E : clear implicits.

(** ** Damage infliction *)

Section InflictWoundDamage_facts.

Context {E : Type} {creature : EntityAI E}.

Lemma eqb_MeleeWolf_false (ammo : string) :
  ammo <> "MeleeWolf"%string -> String.eqb ammo "MeleeWolf" = false.
Proof. intros Hne. now apply String.eqb_neq. Qed.

Lemma string_not_false (zone_name : string) :
  zone_name <> EmptyString -> string_not zone_name = false.
Proof. intros Hne. unfold string_not. now apply String.eqb_neq. Qed.

(** C1: with a zone name that is not empty and an ammunition other than
    the instantly lethal one, [InflictWoundDamage] makes exactly two
    calls: it decreases the global Health by the magnitude the report
    gives for (zone_name, "Health"), and then the zone's Health by the
    same magnitude. *)
Theorem InflictWoundDamage_decreases_health
    (damage_result : TotalDamageResult) (zone_name ammo : string)
    (w : World E) :
  zone_name <> EmptyString ->
  ammo <> "MeleeWolf"%string ->
  let d := GetDamage damage_result zone_name "Health" in
  InflictWoundDamage damage_result zone_name ammo w =
    Some (tt,
      {| m_ThisEntityAI :=
           DecreaseHealth zone_name "Health" d
             (DecreaseHealth "" "Health" d (m_ThisEntityAI w));
         heap := heap w;
         m_BleedTimer := m_BleedTimer w;
         draws := draws w;
         calls := calls w ++ [CallDecreaseHealth "" "Health" d;
                              CallDecreaseHealth zone_name "Health" d] |}).
Proof.
  intros Hzone Hammo d.
  unfold InflictWoundDamage.
  rewrite (eqb_MeleeWolf_false _ Hammo), (string_not_false _ Hzone).
  apply String.eqb_neq in Hzone.
  unfold bind, ret, EntityAI_DecreaseHealth, modify, log, set_entity; cbn.
  rewrite Hzone; cbn.
  now rewrite <- app_assoc.
Qed.

(** C3, amended: with an empty zone name and an ammunition other than
    "MeleeWolf", [InflictWoundDamage] changes nothing and makes no call,
    whatever the damage report says. *)
Theorem InflictWoundDamage_empty_zone_noop
    (damage_result : TotalDamageResult) (zone_name ammo : string)
    (w : World E) :
  zone_name = EmptyString ->
  ammo <> "MeleeWolf"%string ->
  InflictWoundDamage damage_result zone_name ammo w = Some (tt, w).
Proof.
  intros -> Hammo.
  unfold InflictWoundDamage.
  now rewrite (eqb_MeleeWolf_false _ Hammo).
Qed.

(** C2, amended: with the ammunition "MeleeWolf" the first call of
    [InflictWoundDamage] sets the creature's health to zero.  With an empty
    zone name it is the only call; with any other zone name the two
    decreases of C1 follow it. *)
Theorem InflictWoundDamage_lethal_weapon
    (damage_result : TotalDamageResult) (zone_name : string) (w : World E) :
  let d := GetDamage damage_result zone_name "Health" in
  let killed := SetHealth "" "" (F32.of_Z 0) (m_ThisEntityAI w) in
  exists (w' : World E) (rest : list Call),
    InflictWoundDamage damage_result zone_name "MeleeWolf" w = Some (tt, w') /\
    calls w' = calls w ++ CallSetHealth "" "" (F32.of_Z 0) :: rest /\
    heap w' = heap w /\ m_BleedTimer w' = m_BleedTimer w /\
    (zone_name = EmptyString ->
       rest = [] /\ m_ThisEntityAI w' = killed) /\
    (zone_name <> EmptyString ->
       rest = [CallDecreaseHealth "" "Health" d;
               CallDecreaseHealth zone_name "Health" d] /\
       m_ThisEntityAI w' =
         DecreaseHealth zone_name "Health" d
           (DecreaseHealth "" "Health" d killed)).
Proof.
  intros d killed.
  unfold InflictWoundDamage.
  destruct (string_not zone_name) eqn:Hz; unfold string_not in Hz.
  - apply String.eqb_eq in Hz. subst zone_name.
    eexists _, []. cbn.
    repeat apply conj; try reflexivity.
    + intros _. split; reflexivity.
    + intros Hne. now contradiction Hne.
  - pose proof Hz as Hne. apply String.eqb_neq in Hne.
    eexists _, [_; _].
    unfold bind, ret, EntityAI_SetHealth, EntityAI_DecreaseHealth, modify.
    cbn. rewrite Hz. cbn.
    repeat apply conj; try reflexivity.
    + unfold log, set_entity; cbn. now rewrite <- !app_assoc.
    + intros Heq. now contradiction Hne.
    + intros _. split; reflexivity.
Qed.

End InflictWoundDamage_facts.

(** Hitting the deer's head with a wolf's bite: the health is set to zero
    and the two decreases are made as well. *)
Lemma lethal_bite_on_head_makes_three_calls :
  let r := InflictWoundDamage ex_report "Head" "MeleeWolf" (ex_world ex_deer) in
  option_map (fun aw => calls (snd aw)) r =
    Some [CallSetHealth "" "" (F32.of_Z 0);
          CallDecreaseHealth "" "Health" (F32.of_Z 10);
          CallDecreaseHealth "Head" "Health" (F32.of_Z 10)] /\
  option_map (fun aw => calls (snd aw)) r <>
    Some [CallSetHealth "" "" (F32.of_Z 0)].
Proof. intros r. split; [reflexivity | discriminate]. Qed.

(** A wolf's bite with no zone name: the call is not a no-op, the deer is
    dead after it. *)
Lemma lethal_bite_without_zone_kills :
  let r := InflictWoundDamage ex_report "" "MeleeWolf" (ex_world ex_deer) in
  option_map (fun aw => calls (snd aw)) r =
    Some [CallSetHealth "" "" (F32.of_Z 0)] /\
  IsAlive ex_deer = true /\
  option_map (fun aw => IsAlive (m_ThisEntityAI (snd aw))) r = Some false /\
  r <> Some (tt, ex_world ex_deer).
Proof.
  intros r. repeat apply conj; try reflexivity.
  intros Heq.
  apply (f_equal (option_map (fun aw => calls (snd aw)))) in Heq.
  discriminate Heq.
Qed.

(** A bullet in the deer's head: 10 off the global health, 10 off the
    head's. *)
Example deer_hit_in_the_head :
  let r := InflictWoundDamage ex_report "Head" "Bullet_308Win"
             (ex_world ex_deer) in
  let health zone aw := GetHealth zone "Health" (m_ThisEntityAI (snd aw)) in
  option_map (health "") r = Some (F32.of_Z 90) /\
  option_map (health "Head") r = Some (F32.of_Z 90) /\
  option_map (health "Leg") r = Some (F32.of_Z 100).
Proof. repeat apply conj; reflexivity. Qed.

Lemma InflictWoundDamage_decreases_health_witness :
  InflictWoundDamage ex_report "Head" "Bullet_308Win" (ex_world ex_deer) =
    Some (tt,
      {| m_ThisEntityAI :=
           DecreaseHealth "Head" "Health" (F32.of_Z 10)
             (DecreaseHealth "" "Health" (F32.of_Z 10) ex_deer);
         heap := []; m_BleedTimer := None; draws := 0%nat;
         calls := [CallDecreaseHealth "" "Health" (F32.of_Z 10);
                   CallDecreaseHealth "Head" "Health" (F32.of_Z 10)] |}).
Proof.
  apply (InflictWoundDamage_decreases_health ex_report "Head" "Bullet_308Win"
           (ex_world ex_deer)); discriminate.
Defined.

Lemma InflictWoundDamage_empty_zone_noop_witness :
  InflictWoundDamage ex_report "" "Bullet_308Win" (ex_world ex_deer) =
    Some (tt, ex_world ex_deer).
Proof.
  apply (InflictWoundDamage_empty_zone_noop ex_report "" "Bullet_308Win"
           (ex_world ex_deer)); [reflexivity | discriminate].
Defined.

Lemma InflictWoundDamage_lethal_weapon_witness :
  exists w' : World SimpleEntity,
    InflictWoundDamage ex_report "" "MeleeWolf" (ex_world ex_deer) =
      Some (tt, w') /\
    calls w' = [CallSetHealth "" "" (F32.of_Z 0)].
Proof.
  destruct (InflictWoundDamage_lethal_weapon ex_report "" (ex_world ex_deer))
    as (w' & rest & Hrun & Hcalls & _ & _ & Hempty & _).
  destruct (Hempty eq_refl) as [Hrest _].
  exists w'. split; [exact Hrun |].
  rewrite Hcalls, Hrest. reflexivity.
Defined.


(** ** The bleed tick *)

Section Bleed_facts.

Context {E : Type} {creature : EntityAI E}.

(** The tick on a living creature, and on a dead one. *)
Lemma Bleed_alive (wound_intensity : float) (w : World E) :
  IsAlive (m_ThisEntityAI w) = true ->
  Bleed wound_intensity w =
    Some (tt,
      let drain := F32.mul BASE_BLEED_RATE wound_intensity in
      let drained := DecreaseHealth "" "Blood" drain (m_ThisEntityAI w) in
      if F32.ltb (GetHealth "" "Blood" (m_ThisEntityAI w)) PASS_OUT_AMOUT
      then
        {| m_ThisEntityAI := SetHealth "" "" (F32.of_Z 0) drained;
           heap := heap w; m_BleedTimer := m_BleedTimer w; draws := draws w;
           calls := calls w ++ [CallDecreaseHealth "" "Blood" drain;
                                CallSetHealth "" "" (F32.of_Z 0)] |}
      else
        {| m_ThisEntityAI := drained;
           heap := heap w; m_BleedTimer := m_BleedTimer w; draws := draws w;
           calls := calls w ++ [CallDecreaseHealth "" "Blood" drain] |}).
Proof.
  intros Halive.
  unfold Bleed, bind, EntityAI_IsAlive, get, ret. cbn. rewrite Halive.
  unfold EntityAI_GetHealth, EntityAI_DecreaseHealth, EntityAI_SetHealth,
    modify, bind, get, ret, log, set_entity. cbn.
  destruct (F32.ltb _ PASS_OUT_AMOUT); cbn; [| reflexivity].
  now rewrite <- app_assoc.
Qed.

Lemma Bleed_dead (wound_intensity : float) (w : World E) (r : nat)
    (t : Timer) :
  IsAlive (m_ThisEntityAI w) = false ->
  m_BleedTimer w = Some r ->
  heap w !! r = Some t ->
  Bleed wound_intensity w =
    Some (tt,
      {| m_ThisEntityAI := m_ThisEntityAI w;
         heap := <[r := Timer_Stop t]> (heap w);
         m_BleedTimer := Some r; draws := draws w;
         calls := calls w ++ [CallTimerStop r] |}).
Proof.
  intros Hdead Hslot Hr.
  unfold Bleed, bind, EntityAI_IsAlive, get, ret. cbn. rewrite Hdead.
  unfold Timer_Stop_ref, deref, bind, get, ret, modify, log, set_heap.
  rewrite Hslot. cbn. rewrite Hr. cbn. now rewrite Hslot.
Qed.

(** Firing a running, looping timer registered for "Bleed" is a call of
    [Bleed] with the parameter the timer was started with. *)
Lemma Timer_Tick_Bleed (w : World E) (r : nat) (t : Timer) :
  heap w !! r = Some t ->
  t_running t = true -> t_loop t = true ->
  t_function t = "Bleed"%string ->
  Timer_Tick r w = Bleed (t_params t) w.
Proof.
  intros Hr Hrun Hloop Hfn.
  unfold Timer_Tick, bind, get, ret. cbn.
  now rewrite Hr, Hrun, Hloop, Hfn.
Qed.

Lemma Timer_Tick_idle (w : World E) (r : nat) :
  timer_state r w <> Some true -> Timer_Tick r w = Some (tt, w).
Proof.
  unfold timer_state, Timer_Tick, bind, get, ret. cbn.
  destruct (heap w !! r) as [t |]; cbn; [| reflexivity].
  destruct (t_running t); [intros Hne; now contradiction Hne | reflexivity].
Qed.

(** C6: a tick on a living creature decreases the global Blood once, by
    [BASE_BLEED_RATE * wound_intensity]; [BASE_BLEED_RATE] is 250, so an
    intensity of 1.0 drains 250; the only other call a tick can make is
    the one that sets the health to zero.  The timers are left as they
    are, and the tick of a timer is [Bleed] on the parameter bound when
    the timer was started. *)
Theorem Bleed_drains_blood (wound_intensity : float) (w : World E) :
  IsAlive (m_ThisEntityAI w) = true ->
  let drain := F32.mul BASE_BLEED_RATE wound_intensity in
  BASE_BLEED_RATE = F32.of_Z 250 /\
  F32.mul BASE_BLEED_RATE F32.one = F32.of_Z 250 /\
  (exists (w' : World E) (rest : list Call),
     Bleed wound_intensity w = Some (tt, w') /\
     calls w' = calls w ++ CallDecreaseHealth "" "Blood" drain :: rest /\
     List.filter is_decrease_call rest = [] /\
     (m_ThisEntityAI w' = DecreaseHealth "" "Blood" drain (m_ThisEntityAI w)
      \/ m_ThisEntityAI w' =
           SetHealth "" "" (F32.of_Z 0)
             (DecreaseHealth "" "Blood" drain (m_ThisEntityAI w))) /\
     heap w' = heap w /\ m_BleedTimer w' = m_BleedTimer w) /\
  (forall (r : nat) (t : Timer),
     heap w !! r = Some t ->
     t_running t = true -> t_loop t = true ->
     t_function t = "Bleed"%string ->
     t_params t = wound_intensity ->
     Timer_Tick r w = Bleed wound_intensity w).
Proof.
  intros Halive drain.
  repeat apply conj; try reflexivity.
  - rewrite (Bleed_alive _ _ Halive). cbn zeta.
    destruct (F32.ltb _ PASS_OUT_AMOUT).
    + eexists _, [_]. repeat apply conj; try reflexivity.
      right. reflexivity.
    + eexists _, []. repeat apply conj; try reflexivity.
      left. reflexivity.
  - intros r t Hr Hrun Hloop Hfn <-. now apply Timer_Tick_Bleed.
Qed.

(** C7: on a tick on a living creature the blood level is read before it
    is decreased, and that level alone decides: when it is below
    [PASS_OUT_AMOUT], which is 500, the blood is decreased and then the
    health is set to zero; otherwise the blood is decreased and nothing
    else happens, whatever the level is after the decrease. *)
Theorem Bleed_pass_out (wound_intensity : float) (w : World E) :
  IsAlive (m_ThisEntityAI w) = true ->
  let before := GetHealth "" "Blood" (m_ThisEntityAI w) in
  let drain := F32.mul BASE_BLEED_RATE wound_intensity in
  let drained := DecreaseHealth "" "Blood" drain (m_ThisEntityAI w) in
  PASS_OUT_AMOUT = F32.of_Z 500 /\
  (F32.ltb before PASS_OUT_AMOUT = true ->
     Bleed wound_intensity w =
       Some (tt,
         {| m_ThisEntityAI := SetHealth "" "" (F32.of_Z 0) drained;
            heap := heap w; m_BleedTimer := m_BleedTimer w; draws := draws w;
            calls := calls w ++ [CallDecreaseHealth "" "Blood" drain;
                                 CallSetHealth "" "" (F32.of_Z 0)] |})) /\
  (F32.ltb before PASS_OUT_AMOUT = false ->
     Bleed wound_intensity w =
       Some (tt,
         {| m_ThisEntityAI := drained;
            heap := heap w; m_BleedTimer := m_BleedTimer w; draws := draws w;
            calls := calls w ++ [CallDecreaseHealth "" "Blood" drain] |})).
Proof.
  intros Halive before drain drained.
  split; [reflexivity |].
  rewrite (Bleed_alive _ _ Halive). cbn zeta. fold before.
  split; intros ->; reflexivity.
Qed.

End Bleed_facts.

(** ** Wound creation *)

Section CreateWound_facts.

Context {E : Type} {creature : EntityAI E}.
Variable game : Game.

(** [InflictWoundDamage] always returns; it touches the creature and the
    log only, and every call it makes is a health call. *)
Lemma InflictWoundDamage_frame (damage_result : TotalDamageResult)
    (zone_name ammo : string) (w : World E) :
  exists (e' : E) (cs : list Call),
    InflictWoundDamage damage_result zone_name ammo w =
      Some (tt, {| m_ThisEntityAI := e'; heap := heap w;
                   m_BleedTimer := m_BleedTimer w; draws := draws w;
                   calls := calls w ++ cs |}) /\
    List.filter is_health_call cs = cs.
Proof.
  destruct w as [e h slot n cs0].
  unfold InflictWoundDamage, bind, ret, EntityAI_SetHealth,
    EntityAI_DecreaseHealth, modify, log, set_entity. cbn.
  destruct (String.eqb ammo "MeleeWolf"), (string_not zone_name); cbn;
    try destruct (String.eqb zone_name ""); cbn;
    rewrite <- ?app_assoc; cbn;
    try (eexists _, []; rewrite app_nil_r; split; reflexivity);
    eexists _, _; split; reflexivity.
Qed.

Lemma push_then_insert (h : list Timer) (t t' : Timer) :
  <[length h := t']> (h ++ [t]) = h ++ [t'].
Proof.
  replace (length h) with (length h + 0)%nat by lia.
  now rewrite insert_app_r.
Qed.

(** [CreateWound], once the damage has been applied. *)
Lemma CreateWound_after_damage (damage_result : TotalDamageResult)
    (zone_name ammo : string) (w w1 : World E) :
  InflictWoundDamage damage_result zone_name ammo w = Some (tt, w1) ->
  CreateWound game damage_result zone_name ammo w =
    Some (tt,
      let threshold := bleed_threshold_of game ammo in
      let r := length (heap w1) in
      if bleed_roll game damage_result zone_name ammo w
      then
        {| m_ThisEntityAI := m_ThisEntityAI w1;
           heap := heap w1 ++
             [Timer_Run (F32.of_Z 1) "Bleed" (GetWoundIntensity threshold)
                true new_Timer];
           m_BleedTimer := Some r;
           draws := S (draws w1);
           calls := calls w1 ++
             [CallNewTimer r;
              CallTimerRun r (F32.of_Z 1) "Bleed"
                (GetWoundIntensity threshold) true] |}
      else set_draws (S (draws w1)) w1).
Proof.
  intros Hdamage.
  unfold bleed_roll, CreateWound, bind. rewrite Hdamage.
  unfold EntityAI_GetType, Math_RandomFloat01, bind, get, ret, modify. cbn.
  fold (can_bleed_of game (GetType (m_ThisEntityAI w1)) zone_name).
  fold (bleed_threshold_of game ammo).
  destruct (can_bleed_of _ _ _ && F32.leb _ _); [| reflexivity].
  unfold Timer_new, Timer_Run_ref, deref, bind, get, ret, modify, log,
    set_heap, set_m_BleedTimer. cbn.
  rewrite lookup_app_r by lia. rewrite Nat.sub_diag. cbn.
  rewrite push_then_insert. now rewrite <- app_assoc.
Qed.

(** No positive number is at most zero. *)
Lemma leb_zero_threshold (chance threshold : float) :
  F32.eqb threshold F32.zero = true ->
  F32.ltb F32.zero chance = true ->
  F32.leb chance threshold = false.
Proof.
  unfold F32.eqb, F32.ltb, F32.leb, SFeqb, SFltb, SFleb.
  change F32.zero with (S754_zero false).
  destruct threshold as [st | [|] | | [|] mt et];
    destruct chance as [sc | [|] | | [|] mc ec]; cbn; congruence.
Qed.

Lemma starts_bleeding_fresh (w w' : World E) :
  heap w' = heap w -> ~ starts_bleeding w w'.
Proof.
  intros Hheap (r & t & Hnone & Hsome & _). congruence.
Qed.

(** C4: [CreateWound] first applies the damage, whatever the roll gives:
    the creature is the one [InflictWoundDamage] leaves and no health call
    follows those of [InflictWoundDamage].  A bleed starts exactly when the
    zone's [canBleed] flag is set and the number drawn is at most the
    ammunition's [bleedThreshold]; the started timer loops on "Bleed"
    every 1 time unit with the intensity derived from the threshold, and
    without a start nothing but the draw has happened after the damage. *)
Theorem CreateWound_bleed_decision (damage_result : TotalDamageResult)
    (zone_name ammo : string) (w : World E) :
  exists w1 w' : World E,
    InflictWoundDamage damage_result zone_name ammo w = Some (tt, w1) /\
    CreateWound game damage_result zone_name ammo w = Some (tt, w') /\
    m_ThisEntityAI w' = m_ThisEntityAI w1 /\
    (exists rest : list Call,
       calls w' = calls w1 ++ rest /\ List.filter is_health_call rest = []) /\
    let can_bleed :=
      can_bleed_of game (GetType (m_ThisEntityAI w1)) zone_name in
    let bleed_threshold := bleed_threshold_of game ammo in
    let chance := RandomFloat01 game (draws w) in
    (starts_bleeding w w' <->
       can_bleed = true /\ F32.leb chance bleed_threshold = true) /\
    (starts_bleeding w w' ->
       heap w' = heap w ++
         [Timer_Run (F32.of_Z 1) "Bleed" (GetWoundIntensity bleed_threshold)
            true new_Timer]) /\
    (~ starts_bleeding w w' -> w' = set_draws (S (draws w)) w1).
Proof.
  destruct (InflictWoundDamage_frame damage_result zone_name ammo w)
    as (e' & cs & Hdamage & _).
  eexists _, _. split; [exact Hdamage |].
  split; [exact (CreateWound_after_damage _ _ _ _ _ Hdamage) |].
  unfold bleed_roll. rewrite Hdamage. cbn.
  destruct (can_bleed_of game (GetType e') zone_name) eqn:Hcan;
    destruct (F32.leb (RandomFloat01 game (draws w)) (bleed_threshold_of game ammo))
      eqn:Hle; cbn.
  1: {
    assert (Hstart : starts_bleeding w
      {| m_ThisEntityAI := e';
         heap := heap w ++
           [Timer_Run (F32.of_Z 1) "Bleed"
              (GetWoundIntensity (bleed_threshold_of game ammo)) true
              new_Timer];
         m_BleedTimer := Some (length (heap w));
         draws := S (draws w);
         calls := (calls w ++ cs) ++
           [CallNewTimer (length (heap w));
            CallTimerRun (length (heap w)) (F32.of_Z 1) "Bleed"
              (GetWoundIntensity (bleed_threshold_of game ammo)) true] |}).
    { exists (length (heap w)), (Timer_Run (F32.of_Z 1) "Bleed"
         (GetWoundIntensity (bleed_threshold_of game ammo)) true new_Timer).
      cbn. repeat apply conj; try reflexivity.
      - apply lookup_ge_None. lia.
      - rewrite lookup_app_r by lia. now rewrite Nat.sub_diag. }
    repeat apply conj; try reflexivity.
    - eexists. split; reflexivity.
    - intros _. split; reflexivity.
    - intros _. exact Hstart.
    - intros Hno. now contradiction Hno. }
  all: repeat apply conj; try reflexivity;
    try (exists []; split; [now rewrite app_nil_r | reflexivity]);
    try (intros Hstart; exfalso; revert Hstart;
         now apply starts_bleeding_fresh);
    try (intros [Hc Hl]; discriminate).
Qed.

(** C5, amended: a zone whose [canBleed] flag is not set starts no bleed,
    whatever is drawn; a [bleedThreshold] of zero starts no bleed for every
    draw above zero.  [CreateWound] then applies the damage, consumes the
    draw and does nothing else. *)
Theorem CreateWound_no_bleed (damage_result : TotalDamageResult)
    (zone_name ammo : string) (w : World E) :
  exists w1 : World E,
    InflictWoundDamage damage_result zone_name ammo w = Some (tt, w1) /\
    (can_bleed_of game (GetType (m_ThisEntityAI w1)) zone_name = false \/
     (F32.eqb (bleed_threshold_of game ammo) F32.zero = true /\
      F32.ltb F32.zero (RandomFloat01 game (draws w)) = true) ->
     CreateWound game damage_result zone_name ammo w =
       Some (tt, set_draws (S (draws w)) w1) /\
     ~ starts_bleeding w (set_draws (S (draws w)) w1)).
Proof.
  destruct (InflictWoundDamage_frame damage_result zone_name ammo w)
    as (e' & cs & Hdamage & _).
  eexists. split; [exact Hdamage |].
  intros Hno. cbn in Hno.
  split; [| now apply starts_bleeding_fresh].
  rewrite (CreateWound_after_damage _ _ _ _ _ Hdamage).
  unfold bleed_roll. rewrite Hdamage. cbn.
  destruct Hno as [-> | [Hzero Hpos]]; [reflexivity |].
  rewrite (leb_zero_threshold _ _ Hzero Hpos).
  now rewrite andb_false_r.
Qed.

(** C10: the component has one slot for a timer.  When [CreateWound]
    starts a bleed while the slot holds a running timer, the slot is
    overwritten with the reference to a new timer; the old timer is left as
    it was, still running, and no call of [Stop] is made. *)
Theorem CreateWound_overwrites_timer (damage_result : TotalDamageResult)
    (zone_name ammo : string) (w : World E) (old : nat) (t : Timer) :
  m_BleedTimer w = Some old ->
  heap w !! old = Some t ->
  t_running t = true ->
  bleed_roll game damage_result zone_name ammo w = true ->
  exists (w' : World E) (new : nat) (made : list Call),
    CreateWound game damage_result zone_name ammo w = Some (tt, w') /\
    m_BleedTimer w' = Some new /\ new <> old /\
    timer_state new w' = Some true /\
    heap w' !! old = Some t /\
    calls w' = calls w ++ made /\ List.filter is_stop_call made = [].
Proof.
  intros Hslot Hold Hrun Hroll.
  destruct (InflictWoundDamage_frame damage_result zone_name ammo w)
    as (e' & cs & Hdamage & Hcs).
  pose proof (lookup_lt_Some _ _ _ Hold) as Hlt.
  eexists _, (length (heap w)), (cs ++ [_; _]).
  rewrite (CreateWound_after_damage _ _ _ _ _ Hdamage), Hroll. cbn.
  repeat apply conj; try reflexivity.
  - lia.
  - unfold timer_state. cbn.
    rewrite lookup_app_r by lia. now rewrite Nat.sub_diag.
  - cbn. now rewrite lookup_app_l.
  - cbn. now rewrite <- app_assoc.
  - rewrite List.filter_app. cbn. rewrite app_nil_r.
    rewrite <- Hcs. clear.
    induction cs as [| c cs IH]; [reflexivity |].
    destruct c; cbn; exact IH.
Qed.

End CreateWound_facts.

(** ** After the creature's death *)

Section Terminal.

Context {E : Type} {creature : EntityAI E}.
Variable game : Game.

Lemma no_timer_started_refl (w : World E) : no_timer_started w w.
Proof. repeat split; auto. Qed.

Lemma no_timer_started_trans (w1 w2 w3 : World E) :
  no_timer_started w1 w2 -> no_timer_started w2 w3 ->
  no_timer_started w1 w3.
Proof.
  intros (Hs1 & Hl1 & Hf1 & Hr1) (Hs2 & Hl2 & Hf2 & Hr2).
  repeat split; try congruence; auto.
Qed.

Lemma no_timer_started_same_heap (w w' : World E) :
  heap w' = heap w -> m_BleedTimer w' = m_BleedTimer w ->
  no_timer_started w w'.
Proof.
  intros Hh Hs. unfold no_timer_started, timer_state.
  rewrite Hh, Hs. repeat split; auto.
Qed.

Lemma holds_timer_no_timer_started (w w' : World E) :
  holds_timer w -> no_timer_started w w' -> holds_timer w'.
Proof.
  intros (r & Hr & Hlt) (Hs & Hl & _). exists r. split; [congruence | lia].
Qed.

(** Stopping the timer behind [r]. *)
Lemma Timer_Stop_ref_some (w : World E) (r : nat) (t : Timer) :
  heap w !! r = Some t ->
  Timer_Stop_ref (Some r) w =
    Some (tt, log (CallTimerStop r)
                (set_heap (<[r := Timer_Stop t]> (heap w)) w)).
Proof.
  intros Hr.
  unfold Timer_Stop_ref, deref, bind, get, ret, modify. cbn.
  now rewrite Hr.
Qed.

Lemma timer_state_stopped (w : World E) (r j : nat) (t : Timer)
    (cs : list Call) :
  heap w !! r = Some t ->
  timer_state j
    {| m_ThisEntityAI := m_ThisEntityAI w;
       heap := <[r := Timer_Stop t]> (heap w);
       m_BleedTimer := m_BleedTimer w; draws := draws w; calls := cs |} =
  if Nat.eqb j r then Some false else timer_state j w.
Proof.
  intros Hr. unfold timer_state. cbn.
  destruct (Nat.eqb_spec j r) as [-> | Hne].
  - rewrite list_lookup_insert_eq; [reflexivity |].
    now apply lookup_lt_Some with t.
  - now rewrite list_lookup_insert_ne by congruence.
Qed.

Lemma no_timer_started_stop (w : World E) (r : nat) (t : Timer)
    (cs : list Call) :
  heap w !! r = Some t ->
  no_timer_started w
    {| m_ThisEntityAI := m_ThisEntityAI w;
       heap := <[r := Timer_Stop t]> (heap w);
       m_BleedTimer := m_BleedTimer w; draws := draws w; calls := cs |}.
Proof.
  intros Hr. unfold no_timer_started.
  split; [reflexivity |]. split; [cbn; apply length_insert |].
  split; intros j; rewrite (timer_state_stopped _ _ _ _ _ Hr);
    destruct (Nat.eqb j r); congruence.
Qed.

(** A component that holds a timer can always run [Bleed], and [Bleed]
    starts no timer. *)
Lemma Bleed_no_timer_started (wound_intensity : float) (w : World E) :
  holds_timer w ->
  exists w' : World E,
    Bleed wound_intensity w = Some (tt, w') /\ no_timer_started w w'.
Proof.
  intros (r & Hslot & Hlt).
  destruct (IsAlive (m_ThisEntityAI w)) eqn:Halive.
  - rewrite (Bleed_alive _ _ Halive). eexists. split; [reflexivity |].
    cbn zeta.
    destruct (F32.ltb _ PASS_OUT_AMOUT);
      now apply no_timer_started_same_heap.
  - destruct (lookup_lt_is_Some_2 _ _ Hlt) as [t Hr].
    rewrite (Bleed_dead _ _ _ _ Halive Hslot Hr).
    eexists. split; [reflexivity |].
    rewrite <- Hslot. exact (no_timer_started_stop w r t _ Hr).
Qed.

Lemma Timer_Tick_no_timer_started (r : nat) (w : World E) :
  holds_timer w ->
  exists w' : World E,
    Timer_Tick r w = Some (tt, w') /\ no_timer_started w w'.
Proof.
  intros Hheld.
  unfold Timer_Tick, bind at 1, get. cbn.
  destruct (heap w !! r) as [t |] eqn:Hr; cbn.
  2: { eexists. split; [reflexivity | apply no_timer_started_refl]. }
  destruct (t_running t).
  2: { eexists. split; [reflexivity | apply no_timer_started_refl]. }
  assert (Hfirst : exists w1 : World E,
    (if t_loop t then ret tt else Timer_Stop_ref (Some r)) w = Some (tt, w1)
    /\ no_timer_started w w1).
  { destruct (t_loop t).
    - eexists. split; [reflexivity | apply no_timer_started_refl].
    - rewrite (Timer_Stop_ref_some _ _ _ Hr). eexists.
      split; [reflexivity |].
      exact (no_timer_started_stop w r t _ Hr). }
  destruct Hfirst as (w1 & Hrun1 & Hq1).
  unfold bind. rewrite Hrun1.
  destruct (String.eqb (t_function t) "Bleed").
  - destruct (Bleed_no_timer_started (t_params t) w1) as (w2 & Hrun2 & Hq2).
    { now apply holds_timer_no_timer_started with w. }
    exists w2. split; [exact Hrun2 |].
    now apply no_timer_started_trans with w1.
  - exists w1. split; [reflexivity | exact Hq1].
Qed.

(** Whatever happens to a component that holds a timer, it goes through,
    the component still holds a timer, and a timer that was stopped stays
    stopped; unless [CreateWound] is called, no timer is started. *)
Lemma exec_keeps_stopped (op : Op E) (w : World E) :
  holds_timer w ->
  exists w' : World E,
    exec game op w = Some (tt, w') /\
    holds_timer w' /\
    (forall j : nat,
       timer_state j w = Some false -> timer_state j w' = Some false) /\
    (is_CreateWound op = false -> no_timer_started w w').
Proof.
  intros Hheld.
  assert (Hweaken : forall w' : World E,
    no_timer_started w w' ->
    holds_timer w' /\
    (forall j : nat,
       timer_state j w = Some false -> timer_state j w' = Some false) /\
    (is_CreateWound op = false -> no_timer_started w w')).
  { intros w' Hq. split; [now apply holds_timer_no_timer_started with w |].
    split; [apply Hq | intros _; exact Hq]. }
  destruct op as [dr zone ammo | dr zone ammo | wi | r | f]; cbn [exec].
  - destruct (InflictWoundDamage_frame dr zone ammo w) as (e' & cs & Hd & _).
    rewrite Hd. eexists. split; [reflexivity |].
    apply Hweaken. now apply no_timer_started_same_heap.
  - destruct (InflictWoundDamage_frame dr zone ammo w) as (e' & cs & Hd & _).
    rewrite (CreateWound_after_damage game _ _ _ _ _ Hd).
    eexists. split; [reflexivity |]. cbn zeta.
    destruct (bleed_roll game dr zone ammo w).
    + split; [| split; [| discriminate]].
      * exists (length (heap w)). cbn. rewrite length_app. cbn.
        split; [reflexivity | lia].
      * intros j. unfold timer_state. cbn.
        destruct (heap w !! j) as [t |] eqn:Hj; [| discriminate].
        rewrite lookup_app_l by (now apply lookup_lt_Some with t).
        now rewrite Hj.
    + split; [| split; [| discriminate]].
      * destruct Hheld as (r & Hr & Hlt). now exists r.
      * intros j Hj. exact Hj.
  - destruct (Bleed_no_timer_started wi w Hheld) as (w' & Hrun & Hq).
    exists w'. split; [exact Hrun | now apply Hweaken].
  - destruct (Timer_Tick_no_timer_started r w Hheld) as (w' & Hrun & Hq).
    exists w'. split; [exact Hrun | now apply Hweaken].
  - eexists. split; [reflexivity |].
    apply Hweaken. now apply no_timer_started_same_heap.
Qed.

Lemma run_keeps_stopped (ops : list (Op E)) (w : World E) :
  holds_timer w ->
  exists w' : World E,
    run game ops w = Some (tt, w') /\
    holds_timer w' /\
    (forall j : nat,
       timer_state j w = Some false -> timer_state j w' = Some false) /\
    (forallb (fun op => negb (is_CreateWound op)) ops = true ->
     no_timer_started w w').
Proof.
  revert w. induction ops as [| op ops IH]; intros w Hheld.
  - exists w. cbn. repeat apply conj; auto.
    intros _. apply no_timer_started_refl.
  - destruct (exec_keeps_stopped op w Hheld)
      as (w1 & Hrun1 & Hheld1 & Hstop1 & Hq1).
    destruct (IH w1 Hheld1) as (w2 & Hrun2 & Hheld2 & Hstop2 & Hq2).
    exists w2. cbn [run]. unfold bind. rewrite Hrun1.
    repeat apply conj; auto.
    cbn [forallb]. intros Hall. apply andb_prop in Hall as [Hop Hops].
    apply negb_true_iff in Hop.
    apply no_timer_started_trans with w1; auto.
Qed.

(** A component starts without a timer and, as soon as a timer exists,
    holds one: a tick never finds [m_BleedTimer] to be [null]. *)
Lemma exec_timer_invariant (op : Op E) (w w' : World E) :
  no_timer w \/ holds_timer w ->
  exec game op w = Some (tt, w') ->
  no_timer w' \/ holds_timer w'.
Proof.
  intros [[Hheap Hslot] | Hheld] Hrun.
  2: { destruct (exec_keeps_stopped op w Hheld) as (w'' & Hrun' & Hheld' & _).
       right. congruence. }
  destruct op as [dr zone ammo | dr zone ammo | wi | r | f]; cbn [exec] in Hrun.
  - destruct (InflictWoundDamage_frame dr zone ammo w) as (e' & cs & Hd & _).
    rewrite Hd in Hrun. injection Hrun as <-. left. now split.
  - destruct (InflictWoundDamage_frame dr zone ammo w) as (e' & cs & Hd & _).
    rewrite (CreateWound_after_damage game _ _ _ _ _ Hd) in Hrun.
    injection Hrun as <-. cbn zeta.
    destruct (bleed_roll game dr zone ammo w).
    + right. exists (length (heap w)). cbn. rewrite length_app. cbn.
      split; [reflexivity | lia].
    + left. now split.
  - destruct (IsAlive (m_ThisEntityAI w)) eqn:Halive.
    + rewrite (Bleed_alive _ _ Halive) in Hrun. injection Hrun as <-.
      left. cbn zeta. destruct (F32.ltb _ PASS_OUT_AMOUT); now split.
    + unfold Bleed, bind, EntityAI_IsAlive, get, ret in Hrun. cbn in Hrun.
      rewrite Halive, Hslot in Hrun. discriminate Hrun.
  - unfold Timer_Tick, bind, get, ret in Hrun. cbn in Hrun.
    rewrite Hheap in Hrun. cbn in Hrun. injection Hrun as <-.
    left. now split.
  - injection Hrun as <-. left. now split.
Qed.

Lemma run_timer_invariant (ops : list (Op E)) (w w' : World E) :
  no_timer w \/ holds_timer w ->
  run game ops w = Some (tt, w') ->
  no_timer w' \/ holds_timer w'.
Proof.
  revert w. induction ops as [| op ops IH]; intros w Hinv Hrun.
  - injection Hrun as <-. exact Hinv.
  - cbn [run] in Hrun. unfold bind in Hrun.
    destruct (exec game op w) as [[[] w1] |] eqn:Hop; [| discriminate].
    apply (IH w1); [| exact Hrun].
    now apply exec_timer_invariant with op w.
Qed.

(** C8, amended: when the creature is not alive, [Bleed] leaves the
    creature as it is and makes one call, the [Stop] of the timer the
    component holds in [m_BleedTimer].  That timer is then stopped for
    good: whatever happens afterwards (calls of the component's methods,
    [CreateWound] included, ticks of any timer, the engine acting on the
    creature), it stays stopped and its tick does nothing; and as long as
    [CreateWound] is not called, no timer that is running afterwards was
    not already running. *)
Theorem Bleed_dead_stops_timer (wound_intensity : float) (w : World E)
    (r : nat) :
  IsAlive (m_ThisEntityAI w) = false ->
  m_BleedTimer w = Some r ->
  (r < length (heap w))%nat ->
  exists w' : World E,
    Bleed wound_intensity w = Some (tt, w') /\
    m_ThisEntityAI w' = m_ThisEntityAI w /\
    calls w' = calls w ++ [CallTimerStop r] /\
    timer_state r w' = Some false /\
    forall ops : list (Op E),
    exists w'' : World E,
      run game ops w' = Some (tt, w'') /\
      timer_state r w'' = Some false /\
      Timer_Tick r w'' = Some (tt, w'') /\
      (forallb (fun op => negb (is_CreateWound op)) ops = true ->
       forall j : nat,
         timer_state j w'' = Some true -> timer_state j w' = Some true).
Proof.
  intros Hdead Hslot Hlt.
  destruct (lookup_lt_is_Some_2 _ _ Hlt) as [t Hr].
  rewrite (Bleed_dead _ _ _ _ Hdead Hslot Hr).
  eexists. split; [reflexivity |].
  assert (Hstopped : timer_state r
    {| m_ThisEntityAI := m_ThisEntityAI w;
       heap := <[r := Timer_Stop t]> (heap w);
       m_BleedTimer := Some r; draws := draws w;
       calls := calls w ++ [CallTimerStop r] |} = Some false).
  { rewrite <- Hslot, (timer_state_stopped _ _ _ _ _ Hr).
    now rewrite Nat.eqb_refl. }
  repeat apply conj; try reflexivity; [exact Hstopped |].
  intros ops.
  destruct (run_keeps_stopped ops
    {| m_ThisEntityAI := m_ThisEntityAI w;
       heap := <[r := Timer_Stop t]> (heap w);
       m_BleedTimer := Some r; draws := draws w;
       calls := calls w ++ [CallTimerStop r] |})
    as (w'' & Hrun & _ & Hstop & Hq).
  { exists r. cbn. split; [reflexivity |]. now rewrite length_insert. }
  exists w''. split; [exact Hrun |].
  pose proof (Hstop r Hstopped) as Hr''.
  split; [exact Hr'' |].
  split.
  - apply Timer_Tick_idle. rewrite Hr''. discriminate.
  - intros Hall j Hj. destruct (Hq Hall) as (_ & _ & _ & Hback). auto.
Qed.

End Terminal.

(** ** Wound intensity *)

Section GetWoundIntensity_facts.









End GetWoundIntensity_facts.

(** ** The properties on the deer *)

Lemma CreateWound_bleed_decision_witness :
  (exists w' : World SimpleEntity,
     CreateWound (ex_game F32.half draw_03) ex_report "Head" "Bullet_308Win"
       (ex_world ex_deer) = Some (tt, w') /\
     starts_bleeding (ex_world ex_deer) w') /\
  (exists w' : World SimpleEntity,
     CreateWound (ex_game F32.half draw_07) ex_report "Head" "Bullet_308Win"
       (ex_world ex_deer) = Some (tt, w') /\
     ~ starts_bleeding (ex_world ex_deer) w').
Proof.
  split.
  - destruct (CreateWound_bleed_decision (ex_game F32.half draw_03) ex_report
                "Head" "Bullet_308Win" (ex_world ex_deer))
      as (w1 & w' & Hd & Hc & _ & _ & Hiff & _).
    exists w'. split; [exact Hc |].
    apply Hiff. injection Hd as <-. split; reflexivity.
  - destruct (CreateWound_bleed_decision (ex_game F32.half draw_07) ex_report
                "Head" "Bullet_308Win" (ex_world ex_deer))
      as (w1 & w' & Hd & Hc & _ & _ & Hiff & _).
    exists w'. split; [exact Hc |].
    intros Hstart. apply Hiff in Hstart as [_ Hle]. discriminate Hle.
Defined.

(** A threshold of zero, a draw of zero, a zone that can bleed: the bleed
    starts. *)
Lemma zero_threshold_zero_draw_bleeds :
  let g := ex_game F32.zero F32.zero in
  let w' : World SimpleEntity :=
    {| m_ThisEntityAI :=
         DecreaseHealth "Head" "Health" (F32.of_Z 10)
           (DecreaseHealth "" "Health" (F32.of_Z 10) ex_deer);
       heap := [Timer_Run (F32.of_Z 1) "Bleed" (GetWoundIntensity F32.zero)
                  true new_Timer];
       m_BleedTimer := Some 0%nat;
       draws := 1%nat;
       calls := [CallDecreaseHealth "" "Health" (F32.of_Z 10);
                 CallDecreaseHealth "Head" "Health" (F32.of_Z 10);
                 CallNewTimer 0;
                 CallTimerRun 0 (F32.of_Z 1) "Bleed"
                   (GetWoundIntensity F32.zero) true] |} in
  bleed_threshold_of g "Bullet_308Win" = F32.zero /\
  RandomFloat01 g 0 = F32.zero /\
  F32.leb F32.zero (RandomFloat01 g 0) && F32.ltb (RandomFloat01 g 0) F32.one
    = true /\
  CreateWound g ex_report "Head" "Bullet_308Win" (ex_world ex_deer) =
    Some (tt, w') /\
  timer_state 0 w' = Some true /\
  starts_bleeding (ex_world ex_deer) w'.
Proof.
  intros g w'. repeat apply conj; try reflexivity.
  exists 0%nat, (Timer_Run (F32.of_Z 1) "Bleed" (GetWoundIntensity F32.zero)
                   true new_Timer).
  repeat apply conj; reflexivity.
Qed.

Lemma CreateWound_no_bleed_witness :
  exists w' : World SimpleEntity,
    CreateWound (ex_game F32.zero draw_03) ex_report "Head" "Bullet_308Win"
      (ex_world ex_deer) = Some (tt, w') /\
    ~ starts_bleeding (ex_world ex_deer) w'.
Proof.
  destruct (CreateWound_no_bleed (ex_game F32.zero draw_03) ex_report
              "Head" "Bullet_308Win" (ex_world ex_deer))
    as (w1 & Hd & Hno).
  eexists. apply Hno. right. split; reflexivity.
Defined.

Lemma CreateWound_overwrites_timer_witness :
  exists (w' : World SimpleEntity) (new : nat),
    CreateWound (ex_game F32.half draw_03) ex_report "Head" "Bullet_308Win"
      (ex_bleeding_world ex_deer) = Some (tt, w') /\
    m_BleedTimer w' = Some new /\ new <> 0%nat /\
    heap w' !! 0%nat =
      Some (Timer_Run (F32.of_Z 1) "Bleed" F32.one true new_Timer).
Proof.
  destruct (CreateWound_overwrites_timer (ex_game F32.half draw_03) ex_report
              "Head" "Bullet_308Win" (ex_bleeding_world ex_deer) 0%nat
              (Timer_Run (F32.of_Z 1) "Bleed" F32.one true new_Timer)
              eq_refl eq_refl eq_refl eq_refl)
    as (w' & new & made & Hrun & Hslot & Hne & _ & Hold & _).
  exists w', new. repeat apply conj; assumption.
Defined.

Lemma Bleed_drains_blood_witness :
  exists (w' : World SimpleEntity) (rest : list Call),
    Bleed F32.one (ex_world ex_deer) = Some (tt, w') /\
    calls w' = CallDecreaseHealth "" "Blood" (F32.of_Z 250) :: rest.
Proof.
  destruct (Bleed_drains_blood (creature := SimpleEntity_EntityAI) F32.one (ex_world ex_deer) eq_refl)
    as (_ & _ & (w' & rest & Hrun & Hcalls & _) & _).
  exists w', rest. split; [exact Hrun | exact Hcalls].
Defined.

Lemma Bleed_pass_out_witness :
  option_map (fun aw => calls (snd aw))
    (Bleed F32.one (ex_world ex_weak_deer)) =
    Some [CallDecreaseHealth "" "Blood" (F32.of_Z 250);
          CallSetHealth "" "" (F32.of_Z 0)] /\
  option_map (fun aw => calls (snd aw)) (Bleed F32.one (ex_world ex_deer)) =
    Some [CallDecreaseHealth "" "Blood" (F32.of_Z 250)].
Proof.
  destruct (Bleed_pass_out (creature := SimpleEntity_EntityAI) F32.one (ex_world ex_weak_deer) eq_refl)
    as (_ & Hkill & _).
  destruct (Bleed_pass_out (creature := SimpleEntity_EntityAI) F32.one (ex_world ex_deer) eq_refl)
    as (_ & _ & Hlive).
  rewrite (Hkill eq_refl), (Hlive eq_refl). split; reflexivity.
Defined.

(** Two wounds that both start a bleed, then the creature dies.  The tick
    of the first timer, whose reference the second wound overwrote, stops
    the second timer and not itself: the first timer is still running, it
    fires again, and once the creature is alive again its tick drains
    blood although no wound was created in between. *)
Lemma overwritten_timer_keeps_ticking :
  let g := ex_game F32.half draw_03 in
  let wound := OpCreateWound ex_report "Head" "Bullet_308Win" in
  let kill := OpEngine (SetHealth "" "" (F32.of_Z 0)) in
  let revive := OpEngine (SetHealth "" "" (F32.of_Z 100)) in
  let state ops :=
    option_map
      (fun aw : unit * World SimpleEntity =>
         (IsAlive (m_ThisEntityAI (snd aw)),
          timer_state 0 (snd aw), timer_state 1 (snd aw),
          GetHealth "" "Blood" (m_ThisEntityAI (snd aw)),
          List.filter is_stop_call (calls (snd aw))))
      (run g ops (ex_world ex_deer)) in
  let dead := [wound; wound; kill] in
  state dead =
    Some (false, Some true, Some true, F32.of_Z 600, []) /\
  state (dead ++ [OpTimerTick 0]) =
    Some (false, Some true, Some false, F32.of_Z 600, [CallTimerStop 1]) /\
  state (dead ++ [OpTimerTick 0; OpTimerTick 0]) =
    Some (false, Some true, Some false, F32.of_Z 600,
          [CallTimerStop 1; CallTimerStop 1]) /\
  state (dead ++ [OpTimerTick 0; revive; OpTimerTick 0]) =
    Some (true, Some true, Some false, F32.of_Z 350, [CallTimerStop 1]).
Proof.
  intros g wound kill revive state dead.
  repeat apply conj; vm_compute; reflexivity.
Qed.

Lemma Bleed_dead_stops_timer_witness :
  exists w' : World SimpleEntity,
    Bleed F32.one (ex_bleeding_world ex_dead_deer) = Some (tt, w') /\
    calls w' = [CallTimerStop 0] /\
    timer_state 0 w' = Some false.
Proof.
  destruct (Bleed_dead_stops_timer (creature := SimpleEntity_EntityAI) (ex_game F32.half draw_03) F32.one
              (ex_bleeding_world ex_dead_deer) 0%nat eq_refl eq_refl
              (Nat.lt_0_succ 0))
    as (w' & Hrun & _ & Hcalls & Hstopped & _).
  exists w'. repeat apply conj; assumption.
Defined.


(** The scenario of a deer with 600 blood that bleeds with intensity 1.0:
    the first tick leaves 350 blood and the deer alive, the second leaves
    100 blood and kills it, the third stops the timer. *)
Example bleeding_to_death :
  let g := ex_game F32.half draw_03 in
  let after n :=
    run g (repeat (OpTimerTick 0) n) (ex_bleeding_world ex_deer) in
  let blood aw := GetHealth "" "Blood" (m_ThisEntityAI (snd aw)) in
  let alive aw := IsAlive (m_ThisEntityAI (snd aw)) in
  option_map blood (after 1%nat) = Some (F32.of_Z 350) /\
  option_map alive (after 1%nat) = Some true /\
  option_map blood (after 2%nat) = Some (F32.of_Z 100) /\
  option_map alive (after 2%nat) = Some false /\
  option_map (fun aw => timer_state 0 (snd aw)) (after 2%nat) = Some (Some true) /\
  option_map (fun aw => timer_state 0 (snd aw)) (after 3%nat) = Some (Some false) /\
  option_map (fun aw => calls (snd aw)) (after 3%nat) =
    Some [CallDecreaseHealth "" "Blood" (F32.of_Z 250);
          CallDecreaseHealth "" "Blood" (F32.of_Z 250);
          CallSetHealth "" "" (F32.of_Z 0);
          CallTimerStop 0].
Proof. repeat apply conj; reflexivity. Qed.

(** ** Further properties of the damage and of the roll *)

Section More_wound_facts.

Context {E : Type} {creature : EntityAI E}.
Variable game : Game.

(** X1: [InflictWoundDamage] returns on every input and leaves the
    timers, [m_BleedTimer] and the random source alone.  The calls it makes
    are one of four lists: none; the kill alone; the two decreases; the
    kill and then the two decreases; and the creature is the result of
    these calls.  So the decreases come as a pair or not at all, the global
    Health and then the zone's Health by the same amount (the test
    [zone_name != ""] before the second decrease never fails), and no call
    is made on "Blood". *)
Theorem InflictWoundDamage_decreases_in_pairs
    (damage_result : TotalDamageResult) (zone_name ammo : string)
    (w : World E) :
  exists (w' : World E) (made : list Call),
    InflictWoundDamage damage_result zone_name ammo w = Some (tt, w') /\
    heap w' = heap w /\ m_BleedTimer w' = m_BleedTimer w /\
    draws w' = draws w /\
    calls w' = calls w ++ made /\
    let d := GetDamage damage_result zone_name "Health" in
    let e := m_ThisEntityAI w in
    let kill := CallSetHealth "" "" (F32.of_Z 0) in
    let pair := [CallDecreaseHealth "" "Health" d;
                 CallDecreaseHealth zone_name "Health" d] in
    let decreased (e0 : E) :=
      DecreaseHealth zone_name "Health" d (DecreaseHealth "" "Health" d e0) in
    ((made = [] /\ m_ThisEntityAI w' = e) \/
     (made = [kill] /\
      m_ThisEntityAI w' = SetHealth "" "" (F32.of_Z 0) e) \/
     (made = pair /\ m_ThisEntityAI w' = decreased e) \/
     (made = kill :: pair /\
      m_ThisEntityAI w' = decreased (SetHealth "" "" (F32.of_Z 0) e))) /\
    (List.filter is_decrease_call made = [] \/
     List.filter is_decrease_call made = pair) /\
    List.filter is_blood_call made = [].
Proof.
  destruct w as [e h slot n cs0].
  unfold InflictWoundDamage, bind, ret, EntityAI_SetHealth,
    EntityAI_DecreaseHealth, modify, log, set_entity, string_not. cbn.
  destruct (String.eqb ammo "MeleeWolf"), (String.eqb zone_name ""); cbn;
    rewrite <- ?app_assoc; cbn.
  - eexists _, [_]. repeat apply conj; try reflexivity.
    + right. left. split; reflexivity.
    + now left.
  - eexists _, [_; _; _]. repeat apply conj; try reflexivity.
    + right. right. right. split; reflexivity.
    + now right.
  - eexists _, []. rewrite app_nil_r.
    repeat apply conj; try reflexivity.
    + left. split; reflexivity.
    + now left.
  - eexists _, [_; _]. repeat apply conj; try reflexivity.
    + right. right. left. split; reflexivity.
    + now right.
Qed.

(** X2: [CreateWound] returns on every input and draws exactly one random
    number, whether or not a bleed starts and whether or not the zone can
    bleed; it creates at most one timer and leaves every timer that
    existed as it was. *)
Theorem CreateWound_draws_once (damage_result : TotalDamageResult)
    (zone_name ammo : string) (w : World E) :
  exists w' : World E,
    CreateWound game damage_result zone_name ammo w = Some (tt, w') /\
    draws w' = S (draws w) /\
    (heap w' = heap w \/ exists t : Timer, heap w' = heap w ++ [t]) /\
    (forall (j : nat) (t : Timer),
       heap w !! j = Some t -> heap w' !! j = Some t).
Proof.
  destruct (InflictWoundDamage_frame damage_result zone_name ammo w)
    as (e' & cs & Hd & _).
  rewrite (CreateWound_after_damage game _ _ _ _ _ Hd).
  eexists. split; [reflexivity |]. cbn zeta.
  destruct (bleed_roll game damage_result zone_name ammo w); cbn.
  - repeat apply conj; try reflexivity.
    + right. eexists. reflexivity.
    + intros j t Hj. rewrite lookup_app_l; [exact Hj |].
      now apply lookup_lt_Some with t.
  - repeat apply conj; try reflexivity; [now left | auto].
Qed.

(** X3: a wound without a zone name and from an ammunition other than
    "MeleeWolf" does no damage, and still rolls for a bleed: when the roll
    succeeds the creature is untouched and the only calls are the creation
    and the start of the timer. *)
Theorem CreateWound_empty_zone_can_bleed (damage_result : TotalDamageResult)
    (zone_name ammo : string) (w : World E) :
  zone_name = EmptyString ->
  ammo <> "MeleeWolf"%string ->
  can_bleed_of game (GetType (m_ThisEntityAI w)) "" = true ->
  F32.leb (RandomFloat01 game (draws w)) (bleed_threshold_of game ammo)
    = true ->
  let r := length (heap w) in
  let wound_intensity := GetWoundIntensity (bleed_threshold_of game ammo) in
  CreateWound game damage_result zone_name ammo w =
    Some (tt,
      {| m_ThisEntityAI := m_ThisEntityAI w;
         heap := heap w ++
           [Timer_Run (F32.of_Z 1) "Bleed" wound_intensity true new_Timer];
         m_BleedTimer := Some r;
         draws := S (draws w);
         calls := calls w ++
           [CallNewTimer r;
            CallTimerRun r (F32.of_Z 1) "Bleed" wound_intensity true] |}).
Proof.
  intros -> Hammo Hcan Hle r wound_intensity.
  assert (Hd : InflictWoundDamage damage_result "" ammo w = Some (tt, w)).
  { unfold InflictWoundDamage.
    apply String.eqb_neq in Hammo. now rewrite Hammo. }
  rewrite (CreateWound_after_damage game _ _ _ _ _ Hd).
  unfold bleed_roll. rewrite Hd, Hcan, Hle. reflexivity.
Qed.

(** A number that is at least zero is not at most a negative one, and
    nothing compares with a NaN. *)
Lemma leb_negative_threshold (chance threshold : float) :
  F32.ltb threshold F32.zero = true ->
  F32.leb F32.zero chance = true ->
  F32.leb chance threshold = false.
Proof.
  unfold F32.ltb, F32.leb, SFltb, SFleb.
  change F32.zero with (S754_zero false).
  destruct threshold as [st | [|] | | [|] mt et];
    destruct chance as [sc | [|] | | [|] mc ec]; cbn; congruence.
Qed.

Lemma leb_nan (chance threshold : float) :
  chance = S754_nan \/ threshold = S754_nan ->
  F32.leb chance threshold = false.
Proof.
  intros [-> | ->]; [reflexivity |].
  now destruct chance as [sc | sc | | sc mc ec].
Qed.

(** [<=] on floats is transitive. *)
Lemma leb_trans (x y z : float) :
  F32.leb x y = true -> F32.leb y z = true -> F32.leb x z = true.
Proof.
  unfold F32.leb, SFleb.
  destruct x as [sx | [|] | | [|] mx ex];
    destruct y as [sy | [|] | | [|] my ey];
    destruct z as [sz | [|] | | [|] mz ez]; cbn [SFcompare];
    try reflexivity; try (intros; discriminate).
  all: change (PosDef.Pos.compare_cont Eq) with Pos.compare.
  all: destruct (Z.compare_spec ex ey) as [Hxy | Hxy | Hxy];
    destruct (Z.compare_spec ey ez) as [Hyz | Hyz | Hyz];
    destruct (Z.compare_spec ex ez) as [Hxz | Hxz | Hxz];
    try reflexivity; try (intros; discriminate); try (exfalso; lia).
  all: destruct (Pos.compare_spec mx my);
    destruct (Pos.compare_spec my mz);
    destruct (Pos.compare_spec mx mz); cbn [CompOpp];
    try reflexivity; try (intros; discriminate); exfalso; lia.
Qed.

(** X4: a negative [bleedThreshold] starts no bleed for any draw that is
    at least zero, and a [bleedThreshold] or a draw that is not a number
    starts none at all: [CreateWound] applies the damage, consumes the
    draw and does nothing else. *)
Theorem CreateWound_bad_threshold_no_bleed
    (damage_result : TotalDamageResult) (zone_name ammo : string)
    (w : World E) :
  let bleed_threshold := bleed_threshold_of game ammo in
  let chance := RandomFloat01 game (draws w) in
  (F32.ltb bleed_threshold F32.zero = true /\
   F32.leb F32.zero chance = true) \/
  bleed_threshold = S754_nan \/ chance = S754_nan ->
  exists w1 : World E,
    InflictWoundDamage damage_result zone_name ammo w = Some (tt, w1) /\
    CreateWound game damage_result zone_name ammo w =
      Some (tt, set_draws (S (draws w)) w1) /\
    ~ starts_bleeding w (set_draws (S (draws w)) w1).
Proof.
  intros bleed_threshold chance Hbad.
  destruct (InflictWoundDamage_frame damage_result zone_name ammo w)
    as (e' & cs & Hd & _).
  eexists. split; [exact Hd |].
  split; [| now apply starts_bleeding_fresh].
  rewrite (CreateWound_after_damage game _ _ _ _ _ Hd).
  unfold bleed_roll. rewrite Hd. cbn.
  fold bleed_threshold chance.
  replace (F32.leb chance bleed_threshold) with false.
  { now rewrite andb_false_r. }
  symmetry. destruct Hbad as [[Hneg Hpos] | [Hnan | Hnan]].
  - now apply leb_negative_threshold.
  - apply leb_nan. now right.
  - apply leb_nan. now left.
Qed.

(** X5: in a zone that can bleed, a [bleedThreshold] of at least one
    starts a bleed for every draw that is at most one. *)
Theorem CreateWound_certain_bleed (damage_result : TotalDamageResult)
    (zone_name ammo : string) (w : World E) :
  exists w1 : World E,
    InflictWoundDamage damage_result zone_name ammo w = Some (tt, w1) /\
    (can_bleed_of game (GetType (m_ThisEntityAI w1)) zone_name = true ->
     F32.leb (RandomFloat01 game (draws w)) F32.one = true ->
     F32.leb F32.one (bleed_threshold_of game ammo) = true ->
     exists w' : World E,
       CreateWound game damage_result zone_name ammo w = Some (tt, w') /\
       starts_bleeding w w').
Proof.
  destruct (InflictWoundDamage_frame damage_result zone_name ammo w)
    as (e' & cs & Hd & _).
  eexists. split; [exact Hd |].
  cbn. intros Hcan Hchance Hthreshold.
  rewrite (CreateWound_after_damage game _ _ _ _ _ Hd).
  unfold bleed_roll. rewrite Hd. cbn.
  rewrite Hcan, (leb_trans _ _ _ Hchance Hthreshold). cbn.
  eexists. split; [reflexivity |].
  exists (length (heap w)), (Timer_Run (F32.of_Z 1) "Bleed"
    (GetWoundIntensity (bleed_threshold_of game ammo)) true new_Timer).
  cbn. repeat apply conj; try reflexivity.
  - apply lookup_ge_None. lia.
  - rewrite lookup_app_r by lia. now rewrite Nat.sub_diag.
Qed.

End More_wound_facts.

(** ** Further properties of the tick and of the timers *)

Section More_bleed_facts.

Context {E : Type} {creature : EntityAI E}.
Variable game : Game.

Lemma Bleed_dead_null (wound_intensity : float) (w : World E) :
  IsAlive (m_ThisEntityAI w) = false ->
  m_BleedTimer w = None ->
  Bleed wound_intensity w = None.
Proof.
  intros Hdead Hslot.
  unfold Bleed, bind, EntityAI_IsAlive, get, ret. cbn.
  rewrite Hdead. unfold Timer_Stop_ref, deref, bind, get. cbn.
  now rewrite Hslot.
Qed.

(** X6: [Bleed] fails in one situation only: the creature is not alive and
    [m_BleedTimer] is [null] (or refers to no timer), so that [Stop] is
    called on nothing.  On a living creature it needs no timer at all. *)
Theorem Bleed_fails_without_timer (wound_intensity : float) (w : World E) :
  Bleed wound_intensity w = None <->
  IsAlive (m_ThisEntityAI w) = false /\
  (forall r : nat, m_BleedTimer w = Some r -> heap w !! r = None).
Proof.
  destruct (IsAlive (m_ThisEntityAI w)) eqn:Halive.
  - rewrite (Bleed_alive _ _ Halive). split; [discriminate |].
    intros [Hdead _]. discriminate Hdead.
  - destruct (m_BleedTimer w) as [r |] eqn:Hslot.
    + destruct (heap w !! r) as [t |] eqn:Hr.
      * rewrite (Bleed_dead _ _ _ _ Halive Hslot Hr).
        split; [discriminate |].
        intros [_ Hnone]. specialize (Hnone r eq_refl). congruence.
      * split; [| intros _].
        -- intros _. split; [reflexivity |]. intros r' [= <-]. exact Hr.
        -- unfold Bleed, bind, EntityAI_IsAlive, get, ret. cbn.
           rewrite Halive. unfold Timer_Stop_ref, deref, bind, get. cbn.
           rewrite Hslot. cbn. now rewrite Hr.
    + split; [| intros _].
      * intros _. split; [reflexivity |]. intros r' [=].
      * now apply Bleed_dead_null.
Qed.

(** X7: the tick that kills the creature does not stop the timer; the
    tick after it does.  For a creature that is not alive once its health
    is set to zero, two ticks from a blood level below [PASS_OUT_AMOUT]
    make three calls: the decrease, the kill, and the [Stop]. *)
Theorem Bleed_kills_then_stops (wound_intensity : float) (w : World E)
    (r : nat) (t : Timer) :
  let drain := F32.mul BASE_BLEED_RATE wound_intensity in
  let killed :=
    SetHealth "" "" (F32.of_Z 0)
      (DecreaseHealth "" "Blood" drain (m_ThisEntityAI w)) in
  IsAlive (m_ThisEntityAI w) = true ->
  F32.ltb (GetHealth "" "Blood" (m_ThisEntityAI w)) PASS_OUT_AMOUT = true ->
  IsAlive killed = false ->
  m_BleedTimer w = Some r ->
  heap w !! r = Some t ->
  exists w1 : World E,
    Bleed wound_intensity w = Some (tt, w1) /\
    heap w1 = heap w /\
    Bleed wound_intensity w1 =
      Some (tt,
        {| m_ThisEntityAI := killed;
           heap := <[r := Timer_Stop t]> (heap w);
           m_BleedTimer := Some r; draws := draws w;
           calls := calls w ++ [CallDecreaseHealth "" "Blood" drain;
                                CallSetHealth "" "" (F32.of_Z 0);
                                CallTimerStop r] |}).
Proof.
  intros drain killed Halive Hlow Hdead Hslot Hr.
  rewrite (Bleed_alive _ _ Halive). cbn zeta. rewrite Hlow.
  eexists. split; [reflexivity |]. split; [reflexivity |].
  rewrite (Bleed_dead wound_intensity _ r t); cbn; auto.
  now rewrite <- app_assoc.
Qed.

(** One step from a world in which the newest timer is held. *)
Lemma Bleed_newest_held (wound_intensity : float) (w w' : World E) :
  newest_held w ->
  Bleed wound_intensity w = Some (tt, w') ->
  newest_held w' /\
  length (heap w') = length (heap w) /\
  (forall (j : nat) (t : Timer),
     (S j < length (heap w))%nat ->
     heap w !! j = Some t -> heap w' !! j = Some t).
Proof.
  intros [Hall Hslot] Hrun.
  destruct (IsAlive (m_ThisEntityAI w)) eqn:Halive.
  - rewrite (Bleed_alive _ _ Halive) in Hrun. injection Hrun as <-.
    cbn zeta. destruct (F32.ltb _ PASS_OUT_AMOUT); cbn;
      (split; [now split |]); split; auto.
  - destruct (length (heap w)) as [| n] eqn:Hlen.
    { rewrite (Bleed_dead_null _ _ Halive Hslot) in Hrun. discriminate Hrun. }
    destruct (lookup_lt_is_Some_2 (heap w) n) as [t Hn]; [lia |].
    rewrite (Bleed_dead _ _ _ _ Halive Hslot Hn) in Hrun.
    injection Hrun as <-. cbn.
    rewrite length_insert, Hlen.
    repeat apply conj; auto.
    + cbn. apply Forall_insert; [exact Hall |].
      pose proof (Forall_lookup_1 _ _ _ _ Hall Hn) as (Hl & Hf & Hd).
      now repeat split.
    + cbn. now rewrite length_insert, Hlen.
    + intros j t' Hj Hjt. rewrite list_lookup_insert_ne by lia. exact Hjt.
Qed.

Lemma exec_newest_held (op : Op E) (w w' : World E) :
  newest_held w ->
  exec game op w = Some (tt, w') ->
  newest_held w' /\
  (length (heap w) <= length (heap w'))%nat /\
  (forall (j : nat) (t : Timer),
     (S j < length (heap w))%nat ->
     heap w !! j = Some t -> heap w' !! j = Some t).
Proof.
  intros Hnew Hrun.
  assert (Hsame : forall w1 : World E,
    heap w1 = heap w -> m_BleedTimer w1 = m_BleedTimer w ->
    newest_held w1 /\
    (length (heap w) <= length (heap w1))%nat /\
    (forall (j : nat) (t : Timer),
       (S j < length (heap w))%nat ->
       heap w !! j = Some t -> heap w1 !! j = Some t)).
  { intros w1 Hh Hs. unfold newest_held. rewrite Hh, Hs.
    split; [exact Hnew |]. split; [lia | auto]. }
  assert (HBleed : forall wound_intensity : float,
    Bleed wound_intensity w = Some (tt, w') ->
    newest_held w' /\
    (length (heap w) <= length (heap w'))%nat /\
    (forall (j : nat) (t : Timer),
       (S j < length (heap w))%nat ->
       heap w !! j = Some t -> heap w' !! j = Some t)).
  { intros wi Hb.
    destruct (Bleed_newest_held wi w w' Hnew Hb) as (Hn' & Hlen & Hold).
    split; [exact Hn' |]. split; [lia | exact Hold]. }
  destruct op as [dr zone ammo | dr zone ammo | wi | r | f];
    cbn [exec] in Hrun.
  - destruct (InflictWoundDamage_frame dr zone ammo w) as (e' & cs & Hd & _).
    rewrite Hd in Hrun. injection Hrun as <-. now apply Hsame.
  - destruct (InflictWoundDamage_frame dr zone ammo w) as (e' & cs & Hd & _).
    rewrite (CreateWound_after_damage game _ _ _ _ _ Hd) in Hrun.
    injection Hrun as <-. cbn zeta.
    destruct (bleed_roll game dr zone ammo w); [| now apply Hsame].
    destruct Hnew as [Hall Hslot]. unfold newest_held. cbn.
    rewrite length_app. cbn. rewrite Nat.add_1_r.
    repeat apply conj; auto.
    + apply Forall_app. split; [exact Hall |].
      apply Forall_singleton. now repeat split.
    + intros j t Hj Hjt. rewrite lookup_app_l by lia. exact Hjt.
  - now apply HBleed with wi.
  - destruct (heap w !! r) as [t |] eqn:Hr.
    2: { rewrite Timer_Tick_idle in Hrun.
         - injection Hrun as <-. now apply Hsame.
         - unfold timer_state. now rewrite Hr. }
    destruct (t_running t) eqn:Hrunning.
    2: { rewrite Timer_Tick_idle in Hrun.
         - injection Hrun as <-. now apply Hsame.
         - unfold timer_state. rewrite Hr. cbn. rewrite Hrunning.
           discriminate. }
    destruct Hnew as [Hall Hslot].
    pose proof (Forall_lookup_1 _ _ _ _ Hall Hr) as (Hloop & Hfn & _).
    rewrite (Timer_Tick_Bleed _ _ _ Hr Hrunning Hloop Hfn) in Hrun.
    now apply HBleed with (t_params t).
  - injection Hrun as <-. now apply Hsame.
Qed.

Lemma run_newest_held (ops : list (Op E)) (w w' : World E) :
  newest_held w ->
  run game ops w = Some (tt, w') ->
  newest_held w' /\
  (length (heap w) <= length (heap w'))%nat /\
  (forall (j : nat) (t : Timer),
     (S j < length (heap w))%nat ->
     heap w !! j = Some t -> heap w' !! j = Some t).
Proof.
  revert w. induction ops as [| op ops IH]; intros w Hnew Hrun.
  - injection Hrun as <-. split; [exact Hnew |]. split; [lia | auto].
  - cbn [run] in Hrun. unfold bind in Hrun.
    destruct (exec game op w) as [[[] w1] |] eqn:Hop; [| discriminate].
    destruct (exec_newest_held op w w1 Hnew Hop) as (Hnew1 & Hlen1 & Hold1).
    destruct (IH w1 Hnew1 Hrun) as (Hnew' & Hlen' & Hold').
    split; [exact Hnew' |]. split; [lia |].
    intros j t Hj Hjt. apply Hold'; [lia | now apply Hold1].
Qed.

(** X8: in every world a new component can reach, every timer loops on
    "Bleed" every 1 time unit and [m_BleedTimer] refers to the timer
    created last.  Whatever happens next, a timer other than that last one
    is never changed again: once [CreateWound] has overwritten the
    reference to a running timer, the component never stops that timer. *)
Theorem overwritten_timer_never_stopped (ops : list (Op E))
    (w0 w : World E) :
  no_timer w0 ->
  run game ops w0 = Some (tt, w) ->
  newest_held w /\
  forall (ops' : list (Op E)) (w' : World E),
    run game ops' w = Some (tt, w') ->
    forall (j : nat) (t : Timer),
      (S j < length (heap w))%nat ->
      heap w !! j = Some t -> heap w' !! j = Some t.
Proof.
  intros [Hheap Hslot] Hrun.
  assert (Hnew0 : newest_held w0).
  { unfold newest_held. rewrite Hheap, Hslot. split; [constructor | reflexivity]. }
  destruct (run_newest_held ops w0 w Hnew0 Hrun) as (Hnew & _ & _).
  split; [exact Hnew |].
  intros ops' w' Hrun' j t Hj Hjt.
  destruct (run_newest_held ops' w w' Hnew Hrun') as (_ & _ & Hold).
  now apply Hold.
Qed.

End More_bleed_facts.

(** ** Further properties of the intensity *)

Section More_intensity_facts.






End More_intensity_facts.

Section Drain_facts.

Context {E : Type} {creature : EntityAI E}.
Variable game : Game.


End Drain_facts.

(** ** The further properties on the deer *)

Lemma CreateWound_draws_once_witness :
  exists w' : World SimpleEntity,
    CreateWound (ex_game F32.half draw_07) ex_report "Head" "Bullet_308Win"
      (ex_bleeding_world ex_deer) = Some (tt, w') /\
    draws w' = 2%nat /\
    heap w' !! 0%nat =
      Some (Timer_Run (F32.of_Z 1) "Bleed" F32.one true new_Timer).
Proof.
  destruct (CreateWound_draws_once (ex_game F32.half draw_07) ex_report
              "Head" "Bullet_308Win" (ex_bleeding_world ex_deer))
    as (w' & Hrun & Hdraws & _ & Hkept).
  exists w'. split; [exact Hrun |]. split; [exact Hdraws |].
  apply Hkept. reflexivity.
Defined.

Lemma CreateWound_empty_zone_can_bleed_witness :
  let wound_intensity := GetWoundIntensity F32.half in
  CreateWound (ex_game F32.half draw_03) ex_report "" "Bullet_308Win"
    (ex_world ex_deer) =
    Some (tt,
      {| m_ThisEntityAI := ex_deer;
         heap := [Timer_Run (F32.of_Z 1) "Bleed" wound_intensity true
                    new_Timer];
         m_BleedTimer := Some 0%nat;
         draws := 1%nat;
         calls := [CallNewTimer 0;
                   CallTimerRun 0 (F32.of_Z 1) "Bleed" wound_intensity
                     true] |}).
Proof.
  apply (CreateWound_empty_zone_can_bleed (ex_game F32.half draw_03)
           ex_report "" "Bullet_308Win" (ex_world ex_deer));
    [reflexivity | discriminate | reflexivity | reflexivity].
Defined.

Lemma CreateWound_bad_threshold_no_bleed_witness :
  exists w1 : World SimpleEntity,
    CreateWound (ex_game (F32.of_Z (-1)) draw_03) ex_report "Head"
      "Bullet_308Win" (ex_world ex_deer) =
      Some (tt, set_draws 1 w1) /\
    ~ starts_bleeding (ex_world ex_deer) (set_draws 1 w1).
Proof.
  destruct (CreateWound_bad_threshold_no_bleed
              (ex_game (F32.of_Z (-1)) draw_03) ex_report "Head"
              "Bullet_308Win" (ex_world ex_deer))
    as (w1 & _ & Hrun & Hno).
  { left. split; reflexivity. }
  exists w1. split; [exact Hrun | exact Hno].
Defined.

Lemma CreateWound_certain_bleed_witness :
  exists w' : World SimpleEntity,
    CreateWound (ex_game F32.one draw_07) ex_report "Head" "Bullet_308Win"
      (ex_world ex_deer) = Some (tt, w') /\
    starts_bleeding (ex_world ex_deer) w'.
Proof.
  destruct (CreateWound_certain_bleed (ex_game F32.one draw_07) ex_report
              "Head" "Bullet_308Win" (ex_world ex_deer))
    as (w1 & Hd & Hstart).
  injection Hd as <-.
  apply Hstart; reflexivity.
Defined.

Lemma Bleed_fails_without_timer_witness :
  Bleed F32.one (ex_world ex_dead_deer) = None.
Proof.
  apply (Bleed_fails_without_timer (creature := SimpleEntity_EntityAI)
           F32.one (ex_world ex_dead_deer)).
  split; [reflexivity | discriminate].
Defined.

Lemma Bleed_kills_then_stops_witness :
  exists w1 w2 : World SimpleEntity,
    Bleed F32.one (ex_bleeding_world ex_weak_deer) = Some (tt, w1) /\
    timer_state 0 w1 = Some true /\
    Bleed F32.one w1 = Some (tt, w2) /\
    timer_state 0 w2 = Some false /\
    calls w2 = [CallDecreaseHealth "" "Blood" (F32.of_Z 250);
                CallSetHealth "" "" (F32.of_Z 0);
                CallTimerStop 0].
Proof.
  destruct (Bleed_kills_then_stops (creature := SimpleEntity_EntityAI)
              F32.one (ex_bleeding_world ex_weak_deer) 0%nat
              (Timer_Run (F32.of_Z 1) "Bleed" F32.one true new_Timer)
              eq_refl eq_refl eq_refl eq_refl eq_refl)
    as (w1 & Hfirst & Hheap & Hsecond).
  exists w1. eexists. split; [exact Hfirst |].
  split; [unfold timer_state; rewrite Hheap; reflexivity |].
  split; [exact Hsecond |]. split; reflexivity.
Defined.

Lemma overwritten_timer_never_stopped_witness :
  let g := ex_game F32.half draw_03 in
  let wound := OpCreateWound ex_report "Head" "Bullet_308Win" in
  let death :=
    [OpEngine (SetHealth "" "" (F32.of_Z 0)); OpTimerTick 0; OpTimerTick 1;
     OpTimerTick 0] in
  exists w w' : World SimpleEntity,
    run g [wound; wound] (ex_world ex_deer) = Some (tt, w) /\
    run g death w = Some (tt, w') /\
    m_BleedTimer w = Some 1%nat /\
    timer_state 0 w' = Some true /\
    timer_state 1 w' = Some false.
Proof.
  intros g wound death.
  set (w := match run g [wound; wound] (ex_world ex_deer) with
            | Some (_, w) => w
            | None => ex_world ex_deer
            end).
  set (w' := match run g death w with
             | Some (_, w') => w'
             | None => w
             end).
  assert (Hrun : run g [wound; wound] (ex_world ex_deer) = Some (tt, w))
    by (vm_compute; reflexivity).
  assert (Hrun' : run g death w = Some (tt, w'))
    by (vm_compute; reflexivity).
  destruct (overwritten_timer_never_stopped g [wound; wound]
              (ex_world ex_deer) w (conj eq_refl eq_refl) Hrun)
    as [_ Hkept].
  exists w, w'. split; [exact Hrun |]. split; [exact Hrun' |].
  split; [vm_compute; reflexivity |].
  split; [| vm_compute; reflexivity].
  unfold timer_state.
  rewrite (Hkept death w' Hrun' 0%nat
             (Timer_Run (F32.of_Z 1) "Bleed" (GetWoundIntensity F32.half)
                true new_Timer));
    [reflexivity | | vm_compute; reflexivity].
  vm_compute. lia.
Defined.


